(** * Shallow embedding of scripts/run_database_setup.py

    The script is a straight-line Python program: it reads two
    environment variables, builds a Supabase client, reads two SQL files,
    runs three remote steps each wrapped in [try: ... except Exception],
    and prints a closing banner.  It is modelled in a small
    exception-and-state monad whose state records the lines written to
    stdout (one entry per [print] call, without the trailing newline that
    [print] adds) and the external operations performed, in order.

    Everything outside the script is an input: the process environment,
    the file system, and the responses of the Supabase client library and
    the remote service ([Backend]).  A Python exception is a class name
    and its [str(e)] message; [exit(1)] raises [SystemExit]. *)

From Stdlib Require Import String List ZArith NArith Ascii Bool Lia.
From Stdlib Require Import Structures.OrdersEx Sorting.Sorted Sorting.Permutation.
Import ListNotations.
Open Scope string_scope.

(** ** Python strings and values *)

(** A newline character, for the ["\n..."] literals of the script. *)
Definition nl : string := String (ascii_of_nat 10) EmptyString.

(** [s * n] for a string [s]. *)
Fixpoint str_mul (s : string) (n : nat) : string :=
  match n with
  | O => ""
  | S k => s ++ str_mul s k
  end.

(** ["=" * 80] *)
Definition rule80 : string := str_mul "=" 80.

(** [str(n)] for a non-negative Python int: its decimal digits. *)
Fixpoint digits_aux (fuel : nat) (n : N) (acc : string) : string :=
  match fuel with
  | O => acc
  | S f =>
      let acc' := String (ascii_of_N (48 + N.modulo n 10)) acc in
      if (N.div n 10 =? 0)%N then acc' else digits_aux f (N.div n 10) acc'
  end.

Definition py_str_int (n : N) : string := digits_aux (S (N.size_nat n)) n "".

(** [sep.join(xs)] *)
Definition py_join (sep : string) (xs : list string) : string :=
  String.concat sep xs.

(** Python compares [str] values by code point; on UTF-8 encoded strings
    this is the lexicographic order of the bytes. *)
Definition str_lt (a b : string) : bool :=
  match String_as_OT.compare a b with Lt => true | _ => false end.

(** [sorted(xs)]: a stable insertion sort by [<]. *)
Fixpoint sort_insert (x : string) (l : list string) : list string :=
  match l with
  | [] => [x]
  | y :: t => if str_lt x y then x :: y :: t else y :: sort_insert x t
  end.

Definition py_sorted (xs : list string) : list string :=
  fold_right sort_insert [] xs.

(** A Python [set] of strings, kept as the list of its distinct elements
    in insertion order (the script only iterates it through [sorted]). *)
Definition set_add (x : string) (s : list string) : list string :=
  if existsb (String.eqb x) s then s else s ++ [x].

(** A row of a query response: a [dict] from column names to values. *)
Definition row := list (string * string).

Fixpoint dict_get (r : row) (k : string) : option string :=
  match r with
  | [] => None
  | (k', v) :: t => if String.eqb k k' then Some v else dict_get t k
  end.

(** ** Exceptions, external operations and the world *)

Inductive exc :=
| PyException (cls : string) (msg : string)  (** an [Exception]; [msg] is [str(e)] *)
| SystemExit (code : Z).                     (** raised by [exit(code)] *)

Inductive call :=
| CreateClient (url key : string)
| OpenRead (path : string)
| Rpc (fn : string) (sql : string)
| TableSelect (table column : string) (count_exact : bool).

(** The operations that go to the remote service. *)
Definition is_remote (c : call) : bool :=
  match c with
  | Rpc _ _ | TableSelect _ _ _ => true
  | _ => false
  end.

(** Responses of the client library and the remote service.  An error is
    the message of the exception the call raises. *)
Record Backend := mkBackend {
  create_client_error : string -> string -> option string;   (** url, key *)
  rpc_response : string -> string -> option string;   (** function, sql *)
  count_response : string + N;        (** [select('symbol', count='exact')] *)
  rows_response : string + list row   (** [select('symbol')], its [.data] *)
}.

Record World := mkWorld {
  env : string -> option string;      (** [os.environ.get] *)
  fs : string -> string + string;     (** [open(p).read()]: error or text *)
  backend : Backend
}.

(** ** The monad *)

Record St := mkSt { out : list string; calls : list call }.

Definition M (A : Type) : Type := St -> (exc + A) * St.

Definition ret {A} (a : A) : M A := fun st => (inr a, st).

Definition bind {A B} (m : M A) (k : A -> M B) : M B :=
  fun st => match m st with
            | (inl e, st') => (inl e, st')
            | (inr a, st') => k a st'
            end.

Notation "x <- m ;; k" := (bind m (fun x => k))
  (at level 61, m at next level, right associativity).
Notation "m ;; k" := (bind m (fun _ => k))
  (at level 61, right associativity).

Definition raise {A} (e : exc) : M A := fun st => (inl e, st).

Definition print (s : string) : M unit :=
  fun st => (inr tt, mkSt (out st ++ [s]) (calls st)).

Definition perform (c : call) : M unit :=
  fun st => (inr tt, mkSt (out st) (calls st ++ [c])).

(** [try: body except Exception as e: handler(str(e))]; [SystemExit] is
    not an [Exception] and passes through. *)
Definition try_except (body : M unit) (handler : string -> M unit) : M unit :=
  fun st => match body st with
            | (inl (PyException _ msg), st') => handler msg st'
            | r => r
            end.

Definition py_exit {A} (code : Z) : M A := raise (SystemExit code).

(** ** The script *)

Definition schema_path : string := "scripts/001_reset_and_create_enhanced_schema.sql".
Definition seed_path : string := "scripts/002_seed_sample_data.sql".

Definition missing_lines : list string :=
  [ "ERROR: Missing Supabase credentials!";
    "Required environment variables: SUPABASE_URL, SUPABASE_SERVICE_ROLE_KEY" ].

(** [not x] for the [Optional[str]] returned by [os.environ.get]. *)
Definition py_not (o : option string) : bool :=
  match o with
  | None => true
  | Some s => String.eqb s ""
  end.

Definition prints (ls : list string) : M unit :=
  fold_right (fun s k => print s ;; k) (ret tt) ls.

Section Script.
Variable w : World.

Definition os_environ_get (k : string) : M (option string) := ret (env w k).

Definition create_client (url key : string) : M unit :=
  perform (CreateClient url key) ;;
  match create_client_error (backend w) url key with
  | None => ret tt
  | Some m => raise (PyException "SupabaseException" m)
  end.

(** [with open(path, 'r') as f: text = f.read()] *)
Definition open_read (path : string) : M string :=
  perform (OpenRead path) ;;
  match fs w path with
  | inl m => raise (PyException "OSError" m)
  | inr text => ret text
  end.

(** [supabase.rpc(fn, {'sql': sql}).execute()] *)
Definition rpc_execute (fn sql : string) : M unit :=
  perform (Rpc fn sql) ;;
  match rpc_response (backend w) fn sql with
  | None => ret tt
  | Some m => raise (PyException "APIError" m)
  end.

(** [supabase.table('price_history').select('symbol', count='exact').execute().count] *)
Definition select_count : M N :=
  perform (TableSelect "price_history" "symbol" true) ;;
  match count_response (backend w) with
  | inl m => raise (PyException "APIError" m)
  | inr n => ret n
  end.

(** [supabase.table('price_history').select('symbol').execute().data] *)
Definition select_rows : M (list row) :=
  perform (TableSelect "price_history" "symbol" false) ;;
  match rows_response (backend w) with
  | inl m => raise (PyException "APIError" m)
  | inr rs => ret rs
  end.

(** [set(row['symbol'] for row in rows)], the elements added one row at a
    time; a row without the key raises [KeyError('symbol')]. *)
Fixpoint symbols_set (rows : list row) (acc : list string) : M (list string) :=
  match rows with
  | [] => ret acc
  | r :: t =>
      match dict_get r "symbol" with
      | None => raise (PyException "KeyError" "'symbol'")
      | Some s => symbols_set t (set_add s acc)
      end
  end.

(** Lines 5-11. *)
Definition check_credentials : M (string * string) :=
  url <- os_environ_get "SUPABASE_URL" ;;
  key <- os_environ_get "SUPABASE_SERVICE_ROLE_KEY" ;;
  match url, key with
  | Some u, Some k =>
      if py_not url || py_not key
      then prints missing_lines ;; py_exit 1
      else ret (u, k)
  | _, _ => prints missing_lines ;; py_exit 1
  end.

Definition step_banner (title : string) : M unit :=
  print (nl ++ rule80) ;; print title ;; print rule80.

Definition schema_ok_lines : list string :=
  [ nl ++ "✓ Schema creation completed successfully!";
    nl ++ "Tables created:";
    "  • user_profiles";
    "  • exchange_connections (Kraken, Binance US, Coinbase)";
    "  • wallet_connections (MetaMask, WalletConnect, etc.)";
    "  • price_history";
    "  • trading_orders";
    "  • transactions";
    "  • portfolio_holdings";
    "  • trading_strategies";
    "  • price_alerts";
    "  • dashboard_stats";
    nl ++ "✓ Row Level Security (RLS) policies enabled";
    "✓ Indexes created for performance";
    "✓ Triggers configured for auto-updates" ].

Definition schema_error_lines (e : string) : list string :=
  [ nl ++ "✗ Error creating schema: " ++ e;
    nl ++ "NOTE: If you see 'relation does not exist' errors, this is expected.";
    "      The script will execute via the Supabase SQL Editor.";
    nl ++ "Please run the following scripts manually in Supabase SQL Editor:";
    "  1. scripts/001_reset_and_create_enhanced_schema.sql";
    "  2. scripts/002_seed_sample_data.sql" ].

Definition seed_ok_lines : list string :=
  [ nl ++ "✓ Sample data seeded successfully!";
    nl ++ "Sample cryptocurrencies added:";
    "  • BTC (Bitcoin) - 5 historical data points";
    "  • ETH (Ethereum) - 5 historical data points";
    "  • SOL (Solana) - 3 historical data points";
    "  • ADA (Cardano) - 2 historical data points";
    "  • MATIC (Polygon) - 2 historical data points" ].

Definition seed_error_lines (e : string) : list string :=
  [ nl ++ "✗ Error seeding data: " ++ e ].

Definition count_lines (n : N) : list string :=
  [ nl ++ "✓ Database connection successful!";
    "✓ Found " ++ py_str_int n ++ " price history records" ].

Definition symbols_line (syms : list string) : string :=
  "✓ Available symbols: " ++ py_join ", " (py_sorted syms).

Definition verify_error_lines (e : string) : list string :=
  [ nl ++ "✗ Verification failed: " ++ e;
    nl ++ "Please ensure the SQL scripts have been executed in Supabase." ].

Definition footer_lines : list string :=
  [ nl ++ rule80;
    "DATABASE SETUP COMPLETE!";
    rule80;
    nl ++ "Next steps:";
    "  1. Add exchange API credentials via the Trading page";
    "  2. Connect DeFi wallets via the Wallet Connect button";
    "  3. Start monitoring crypto prices in real-time";
    "  4. Create trading strategies and set price alerts";
    nl ++ rule80 ].

(** Lines 20-29. *)
Definition read_scripts : M (string * string) :=
  print (nl ++ "[v0] Reading SQL scripts...") ;;
  schema_sql <- open_read schema_path ;;
  seed_sql <- open_read seed_path ;;
  print "[v0] SQL scripts loaded successfully" ;;
  ret (schema_sql, seed_sql).

(** Lines 31-60. *)
Definition step_schema (schema_sql : string) : M unit :=
  step_banner "STEP 1: Creating Enhanced Database Schema" ;;
  try_except
    (rpc_execute "exec_sql" schema_sql ;; prints schema_ok_lines)
    (fun e => prints (schema_error_lines e)).

(** Lines 62-77. *)
Definition step_seed (seed_sql : string) : M unit :=
  step_banner "STEP 2: Seeding Sample Price Data" ;;
  try_except
    (rpc_execute "exec_sql" seed_sql ;; prints seed_ok_lines)
    (fun e => prints (seed_error_lines e)).

(** Lines 79-97. *)
Definition step_verify : M unit :=
  step_banner "STEP 3: Verifying Database Setup" ;;
  try_except
    (n <- select_count ;;
     prints (count_lines n) ;;
     rows <- select_rows ;;
     unique_symbols <- symbols_set rows [] ;;
     print (symbols_line unique_symbols))
    (fun e => prints (verify_error_lines e)).

(** The whole module, top to bottom. *)
Definition main : M unit :=
  cred <- check_credentials ;;
  create_client (fst cred) (snd cred) ;;
  prints [rule80; "CRYPTO TRADING PLATFORM - DATABASE SETUP"; rule80] ;;
  sql <- read_scripts ;;
  step_schema (fst sql) ;;
  step_seed (snd sql) ;;
  step_verify ;;
  prints footer_lines.

End Script.

(** How the interpreter ends: normally (status 0), through [SystemExit],
    or with an uncaught exception (traceback, status 1). *)
Inductive Outcome :=
| Exited (code : Z)
| Uncaught (cls msg : string).

Definition exit_status (o : Outcome) : Z :=
  match o with
  | Exited c => c
  | Uncaught _ _ => 1
  end.

Record Final := mkFinal { stdout : list string; trace : list call; outcome : Outcome }.

Definition run (w : World) : Final :=
  let '(r, st) := main w (mkSt [] []) in
  mkFinal (out st) (calls st)
    match r with
    | inr _ => Exited 0
    | inl (SystemExit c) => Exited c
    | inl (PyException cls m) => Uncaught cls m
    end.

Definition remote_calls (f : Final) : list call := filter is_remote (trace f).

(** ** Descriptions of what each step prints and calls *)

Definition header_lines : list string :=
  [rule80; "CRYPTO TRADING PLATFORM - DATABASE SETUP"; rule80].

Definition reading_line : string := nl ++ "[v0] Reading SQL scripts...".

Definition read_lines : list string :=
  [reading_line; "[v0] SQL scripts loaded successfully"].

Definition banner_lines (title : string) : list string := [nl ++ rule80; title; rule80].

Definition step1_title : string := "STEP 1: Creating Enhanced Database Schema".
Definition step2_title : string := "STEP 2: Seeding Sample Price Data".
Definition step3_title : string := "STEP 3: Verifying Database Setup".

(** The symbol values of all rows, or [None] when a row has no ['symbol']. *)
Fixpoint row_symbols (rows : list row) : option (list string) :=
  match rows with
  | [] => Some []
  | r :: t =>
      match dict_get r "symbol", row_symbols t with
      | Some s, Some l => Some (s :: l)
      | _, _ => None
      end
  end.

Definition py_set (xs : list string) : list string :=
  fold_left (fun acc x => set_add x acc) xs [].

Definition rpc_result_lines (ok : list string) (err : string -> list string)
    (r : option string) : list string :=
  match r with
  | None => ok
  | Some e => err e
  end.

Definition verify_result_lines (b : Backend) : list string :=
  match count_response b with
  | inl e => verify_error_lines e
  | inr n =>
      count_lines n ++
      match rows_response b with
      | inl e => verify_error_lines e
      | inr rs =>
          match row_symbols rs with
          | None => verify_error_lines "'symbol'"
          | Some l => [symbols_line (py_set l)]
          end
      end
  end.

Definition verify_calls (b : Backend) : list call :=
  TableSelect "price_history" "symbol" true ::
  match count_response b with
  | inl _ => []
  | inr _ => [TableSelect "price_history" "symbol" false]
  end.

(** ** Step lemmas *)

Lemma bind_inr {A B} (m : M A) (k : A -> M B) st a st' :
  m st = (inr a, st') -> bind m k st = k a st'.
Proof. intros H. unfold bind. now rewrite H. Qed.

Lemma prints_spec ls st :
  prints ls st = (inr tt, mkSt (out st ++ ls) (calls st)).
Proof.
  revert st; induction ls as [|s ls IH]; intros [o c]; simpl.
  - now rewrite app_nil_r.
  - unfold bind at 1. simpl. rewrite IH. simpl. now rewrite <- app_assoc.
Qed.

Arguments prints : simpl never.

Ltac norm_st :=
  repeat first [ rewrite prints_spec | progress simpl | rewrite <- !app_assoc ].

Lemma step_banner_spec title st :
  step_banner title st = (inr tt, mkSt (out st ++ banner_lines title) (calls st)).
Proof. destruct st as [o c]. unfold step_banner, bind, print. norm_st. reflexivity. Qed.

Lemma step_schema_spec w sql st :
  step_schema w sql st =
  (inr tt, mkSt (out st ++ banner_lines step1_title ++
                 rpc_result_lines schema_ok_lines schema_error_lines
                   (rpc_response (backend w) "exec_sql" sql))
                (calls st ++ [Rpc "exec_sql" sql])).
Proof.
  destruct st as [o c].
  unfold step_schema, try_except, rpc_execute, perform, step_banner, bind, print.
  destruct (rpc_response (backend w) "exec_sql" sql); norm_st; reflexivity.
Qed.

Lemma step_seed_spec w sql st :
  step_seed w sql st =
  (inr tt, mkSt (out st ++ banner_lines step2_title ++
                 rpc_result_lines seed_ok_lines seed_error_lines
                   (rpc_response (backend w) "exec_sql" sql))
                (calls st ++ [Rpc "exec_sql" sql])).
Proof.
  destruct st as [o c].
  unfold step_seed, try_except, rpc_execute, perform, step_banner, bind, print.
  destruct (rpc_response (backend w) "exec_sql" sql); norm_st; reflexivity.
Qed.

Lemma symbols_set_spec rows acc st :
  symbols_set rows acc st =
  match row_symbols rows with
  | Some l => (inr (fold_left (fun a x => set_add x a) l acc), st)
  | None => (inl (PyException "KeyError" "'symbol'"), st)
  end.
Proof.
  revert acc; induction rows as [|r t IH]; intros acc; simpl.
  - reflexivity.
  - destruct (dict_get r "symbol") as [s|]; [|reflexivity].
    rewrite IH. destruct (row_symbols t); reflexivity.
Qed.

Lemma step_verify_spec w st :
  step_verify w st =
  (inr tt, mkSt (out st ++ banner_lines step3_title ++ verify_result_lines (backend w))
                (calls st ++ verify_calls (backend w))).
Proof.
  destruct st as [o c].
  unfold step_verify, try_except, select_count, select_rows, perform,
    step_banner, bind, print, verify_result_lines, verify_calls.
  destruct (count_response (backend w)) as [e|n]; norm_st; [reflexivity|].
  destruct (rows_response (backend w)) as [e|rs]; norm_st; [reflexivity|].
  rewrite symbols_set_spec. destruct (row_symbols rs); norm_st; reflexivity.
Qed.

Lemma check_credentials_ok w u k st :
  env w "SUPABASE_URL" = Some u -> u <> "" ->
  env w "SUPABASE_SERVICE_ROLE_KEY" = Some k -> k <> "" ->
  check_credentials w st = (inr (u, k), st).
Proof.
  intros Hu Hu' Hk Hk'.
  unfold check_credentials, os_environ_get, bind, ret. rewrite Hu, Hk. simpl.
  apply String.eqb_neq in Hu', Hk'. now rewrite Hu', Hk'.
Qed.

Lemma check_credentials_missing w st :
  env w "SUPABASE_URL" = None \/ env w "SUPABASE_URL" = Some "" \/
  env w "SUPABASE_SERVICE_ROLE_KEY" = None \/ env w "SUPABASE_SERVICE_ROLE_KEY" = Some "" ->
  check_credentials w st = (inl (SystemExit 1), mkSt (out st ++ missing_lines) (calls st)).
Proof.
  intros H. destruct st as [o c].
  unfold check_credentials, os_environ_get, bind, ret, py_exit, raise.
  destruct H as [H|[H|[H|H]]]; rewrite H;
    [ | | destruct (env w "SUPABASE_URL") | destruct (env w "SUPABASE_URL") ];
    try destruct (env w "SUPABASE_SERVICE_ROLE_KEY");
    simpl; rewrite ?orb_true_r; simpl; rewrite ?prints_spec, <- ?app_assoc; reflexivity.
Qed.

Lemma create_client_ok w u k st :
  create_client_error (backend w) u k = None ->
  create_client w u k st = (inr tt, mkSt (out st) (calls st ++ [CreateClient u k])).
Proof. intros H. unfold create_client, perform, bind. now rewrite H. Qed.

Lemma read_scripts_ok w s1 s2 st :
  fs w schema_path = inr s1 -> fs w seed_path = inr s2 ->
  read_scripts w st =
  (inr (s1, s2), mkSt (out st ++ read_lines)
                      (calls st ++ [OpenRead schema_path; OpenRead seed_path])).
Proof.
  intros H1 H2. destruct st as [o c].
  unfold read_scripts, open_read, perform, print, bind, ret. rewrite H1, H2.
  simpl. now rewrite <- !app_assoc.
Qed.

(** The shape of every run that gets past the credentials, the client
    construction and the two file reads. *)
Lemma run_passing w u k s1 s2 :
  env w "SUPABASE_URL" = Some u -> u <> "" ->
  env w "SUPABASE_SERVICE_ROLE_KEY" = Some k -> k <> "" ->
  create_client_error (backend w) u k = None ->
  fs w schema_path = inr s1 -> fs w seed_path = inr s2 ->
  run w =
  mkFinal
    (header_lines ++ read_lines ++
     banner_lines step1_title ++
     rpc_result_lines schema_ok_lines schema_error_lines
       (rpc_response (backend w) "exec_sql" s1) ++
     banner_lines step2_title ++
     rpc_result_lines seed_ok_lines seed_error_lines
       (rpc_response (backend w) "exec_sql" s2) ++
     banner_lines step3_title ++ verify_result_lines (backend w) ++
     footer_lines)
    ([CreateClient u k; OpenRead schema_path; OpenRead seed_path;
      Rpc "exec_sql" s1; Rpc "exec_sql" s2] ++ verify_calls (backend w))
    (Exited 0).
Proof.
  intros Hu Hu' Hk Hk' Hc H1 H2.
  unfold run, main.
  rewrite (bind_inr _ _ _ _ _ (check_credentials_ok w u k _ Hu Hu' Hk Hk')).
  simpl fst; simpl snd.
  rewrite (bind_inr _ _ _ _ _ (create_client_ok w u k _ Hc)).
  rewrite (bind_inr _ _ _ _ _ (prints_spec _ _)).
  rewrite (bind_inr _ _ _ _ _ (read_scripts_ok w s1 s2 _ H1 H2)).
  simpl fst; simpl snd.
  rewrite (bind_inr _ _ _ _ _ (step_schema_spec w s1 _)).
  rewrite (bind_inr _ _ _ _ _ (step_seed_spec w s2 _)).
  rewrite (bind_inr _ _ _ _ _ (step_verify_spec w _)).
  rewrite prints_spec. simpl out; simpl calls.
  now rewrite <- !app_assoc.
Qed.

(** ** [sorted(set(...))] *)

Abbreviation slt := String_as_OT.lt.

Lemma str_lt_iff a b : str_lt a b = true <-> slt a b.
Proof.
  unfold str_lt, String_as_OT.lt.
  destruct (String_as_OT.compare a b); split; congruence.
Qed.

Lemma slt_irrefl a : ~ slt a a.
Proof. destruct String_as_OT.lt_strorder as [Hi _]. exact (Hi a). Qed.

Lemma slt_trans a b c : slt a b -> slt b c -> slt a c.
Proof. destruct String_as_OT.lt_strorder as [_ Ht]. exact (Ht a b c). Qed.

Lemma slt_total a b : a = b \/ slt a b \/ slt b a.
Proof.
  destruct (String_as_OT.compare_spec a b) as [H|H|H]; auto.
Qed.

Lemma sort_insert_perm x l : Permutation (x :: l) (sort_insert x l).
Proof.
  induction l as [|y t IH]; simpl; [reflexivity|].
  destruct (str_lt x y); [reflexivity|].
  rewrite perm_swap. now constructor.
Qed.

Lemma py_sorted_perm l : Permutation l (py_sorted l).
Proof.
  induction l as [|x t IH]; simpl; [reflexivity|].
  rewrite <- sort_insert_perm. now constructor.
Qed.

Lemma sort_insert_sorted x l :
  StronglySorted slt l -> ~ In x l -> StronglySorted slt (sort_insert x l).
Proof.
  induction l as [|y t IH]; intros Hs Hx; simpl.
  - repeat constructor.
  - inversion Hs as [|? ? Ht Hy]; subst.
    destruct (str_lt x y) eqn:E.
    + apply str_lt_iff in E. constructor; [exact Hs|].
      constructor; [exact E|].
      eapply Forall_impl; [|exact Hy]. intros z Hz. eapply slt_trans; eauto.
    + assert (Hyx : slt y x).
      { destruct (slt_total x y) as [->|[H|H]]; [ | | exact H].
        - exfalso. apply Hx. now left.
        - apply str_lt_iff in H. congruence. }
      constructor.
      * apply IH; [exact Ht|]. intros Hin. apply Hx. now right.
      * apply Forall_forall. intros z Hz.
        apply (Permutation_in _ (Permutation_sym (sort_insert_perm x t))) in Hz.
        destruct Hz as [<-|Hz]; [exact Hyx|].
        exact (proj1 (Forall_forall _ _) Hy z Hz).
Qed.

Lemma py_sorted_sorted l : NoDup l -> StronglySorted slt (py_sorted l).
Proof.
  induction l as [|x t IH]; intros Hnd; simpl; [constructor|].
  inversion Hnd as [|? ? Hx Ht]; subst.
  apply sort_insert_sorted; [now apply IH|].
  intros Hin. apply Hx. apply (Permutation_in _ (Permutation_sym (py_sorted_perm t))). exact Hin.
Qed.

Lemma set_add_in x y s : In y (set_add x s) <-> x = y \/ In y s.
Proof.
  unfold set_add. destruct (existsb (String.eqb x) s) eqn:E.
  - apply existsb_exists in E as [z [Hz Hxz]]. apply String.eqb_eq in Hxz. subst z.
    split; [now right|]. intros [<-|H]; assumption.
  - rewrite in_app_iff. simpl. tauto.
Qed.

Lemma set_add_nodup x s : NoDup s -> NoDup (set_add x s).
Proof.
  intros Hnd. unfold set_add. destruct (existsb (String.eqb x) s) eqn:E; [exact Hnd|].
  apply NoDup_app; [exact Hnd | repeat constructor; simpl; tauto |].
  intros y Hy [<-|[]]. apply Bool.not_true_iff_false in E. apply E.
  apply existsb_exists. exists x. split; [exact Hy | apply String.eqb_refl].
Qed.

Lemma set_fold_in l acc y :
  In y (fold_left (fun a x => set_add x a) l acc) <-> In y l \/ In y acc.
Proof.
  revert acc; induction l as [|x t IH]; intros acc; simpl; [tauto|].
  rewrite IH, set_add_in. tauto.
Qed.

Lemma set_fold_nodup l acc : NoDup acc -> NoDup (fold_left (fun a x => set_add x a) l acc).
Proof.
  revert acc; induction l as [|x t IH]; intros acc H; simpl; [exact H|].
  apply IH, set_add_nodup, H.
Qed.

Lemma strongly_sorted_nodup l : StronglySorted slt l -> NoDup l.
Proof.
  induction 1 as [|a t Hs IH Hf]; constructor; [|exact IH].
  intros Hin. apply (slt_irrefl a). exact (proj1 (Forall_forall _ _) Hf a Hin).
Qed.

Lemma sorted_same_elements l1 l2 :
  StronglySorted slt l1 -> StronglySorted slt l2 ->
  (forall x, In x l1 <-> In x l2) -> l1 = l2.
Proof.
  revert l2; induction l1 as [|a t1 IH]; intros [|b t2] H1 H2 Heq.
  - reflexivity.
  - exfalso. apply (proj2 (Heq b)). now left.
  - exfalso. apply (proj1 (Heq a)). now left.
  - inversion H1 as [|? ? Ht1 Ha]; inversion H2 as [|? ? Ht2 Hb]; subst.
    assert (Hab : a = b).
    { destruct (proj1 (Heq a) (or_introl eq_refl)) as [|Ha2]; [congruence|].
      destruct (proj2 (Heq b) (or_introl eq_refl)) as [|Hb1]; [congruence|].
      pose proof (proj1 (Forall_forall _ _) Hb a Ha2).
      pose proof (proj1 (Forall_forall _ _) Ha b Hb1).
      exfalso. apply (slt_irrefl a). eapply slt_trans; eauto. }
    subst b. f_equal. apply IH; [exact Ht1 | exact Ht2|].
    intros x; split; intros Hx.
    + destruct (proj1 (Heq x) (or_intror Hx)) as [Ex|]; [|assumption].
      exfalso. apply (slt_irrefl x).
      pose proof (proj1 (Forall_forall _ _) Ha x Hx) as Hax. now rewrite Ex in Hax.
    + destruct (proj2 (Heq x) (or_intror Hx)) as [Ex|]; [|assumption].
      exfalso. apply (slt_irrefl x).
      pose proof (proj1 (Forall_forall _ _) Hb x Hx) as Hax. now rewrite Ex in Hax.
Qed.

(** What the script joins: the distinct symbols, sorted. *)
Lemma sorted_set_spec l :
  StronglySorted slt (py_sorted (py_set l)) /\ NoDup (py_sorted (py_set l)) /\
  (forall x, In x (py_sorted (py_set l)) <-> In x l).
Proof.
  assert (Hnd : NoDup (py_set l)) by (apply set_fold_nodup; constructor).
  pose proof (py_sorted_sorted _ Hnd) as Hs.
  split; [exact Hs|]. split; [now apply strongly_sorted_nodup|].
  intros x. split; intros Hx.
  - apply (Permutation_in _ (Permutation_sym (py_sorted_perm _))) in Hx.
    apply set_fold_in in Hx as [Hx|[]]. exact Hx.
  - apply (Permutation_in _ (py_sorted_perm _)). apply set_fold_in. now left.
Qed.

(** The line that reports an already sorted list of symbols. *)
Definition available_line (syms : list string) : string :=
  "✓ Available symbols: " ++ py_join ", " syms.

(** ** Runs that stop early *)

Lemma bind_inl {A B} (m : M A) (k : A -> M B) st e st' :
  m st = (inl e, st') -> bind m k st = (inl e, st').
Proof. intros H. unfold bind. now rewrite H. Qed.

Lemma run_client_fails w u k m :
  env w "SUPABASE_URL" = Some u -> u <> "" ->
  env w "SUPABASE_SERVICE_ROLE_KEY" = Some k -> k <> "" ->
  create_client_error (backend w) u k = Some m ->
  run w = mkFinal [] [CreateClient u k] (Uncaught "SupabaseException" m).
Proof.
  intros Hu Hu' Hk Hk' Hc.
  unfold run, main.
  rewrite (bind_inr _ _ _ _ _ (check_credentials_ok w u k _ Hu Hu' Hk Hk')).
  unfold bind at 1. unfold create_client, perform, bind at 1. cbn [fst snd]. rewrite Hc.
  reflexivity.
Qed.

Lemma run_schema_read_fails w u k m :
  env w "SUPABASE_URL" = Some u -> u <> "" ->
  env w "SUPABASE_SERVICE_ROLE_KEY" = Some k -> k <> "" ->
  create_client_error (backend w) u k = None ->
  fs w schema_path = inl m ->
  run w = mkFinal (header_lines ++ [reading_line])
                  [CreateClient u k; OpenRead schema_path]
                  (Uncaught "OSError" m).
Proof.
  intros Hu Hu' Hk Hk' Hc H1.
  unfold run, main.
  rewrite (bind_inr _ _ _ _ _ (check_credentials_ok w u k _ Hu Hu' Hk Hk')).
  rewrite (bind_inr _ _ _ _ _ (create_client_ok w u k _ Hc)).
  rewrite (bind_inr _ _ _ _ _ (prints_spec _ _)).
  unfold bind at 1. unfold read_scripts, open_read, perform, print, bind.
  rewrite H1. reflexivity.
Qed.

Lemma run_seed_read_fails w u k s1 m :
  env w "SUPABASE_URL" = Some u -> u <> "" ->
  env w "SUPABASE_SERVICE_ROLE_KEY" = Some k -> k <> "" ->
  create_client_error (backend w) u k = None ->
  fs w schema_path = inr s1 -> fs w seed_path = inl m ->
  run w = mkFinal (header_lines ++ [reading_line])
                  [CreateClient u k; OpenRead schema_path; OpenRead seed_path]
                  (Uncaught "OSError" m).
Proof.
  intros Hu Hu' Hk Hk' Hc H1 H2.
  unfold run, main.
  rewrite (bind_inr _ _ _ _ _ (check_credentials_ok w u k _ Hu Hu' Hk Hk')).
  rewrite (bind_inr _ _ _ _ _ (create_client_ok w u k _ Hc)).
  rewrite (bind_inr _ _ _ _ _ (prints_spec _ _)).
  unfold bind at 1. unfold read_scripts, open_read, perform, print, bind.
  rewrite H1, H2. reflexivity.
Qed.

Lemma remote_calls_passing w u k s1 s2 :
  env w "SUPABASE_URL" = Some u -> u <> "" ->
  env w "SUPABASE_SERVICE_ROLE_KEY" = Some k -> k <> "" ->
  create_client_error (backend w) u k = None ->
  fs w schema_path = inr s1 -> fs w seed_path = inr s2 ->
  remote_calls (run w) =
  ([Rpc "exec_sql" s1; Rpc "exec_sql" s2; TableSelect "price_history" "symbol" true] ++
   match count_response (backend w) with
   | inl _ => []
   | inr _ => [TableSelect "price_history" "symbol" false]
   end)%list.
Proof.
  intros Hu Hu' Hk Hk' Hc H1 H2.
  rewrite (run_passing w u k s1 s2 Hu Hu' Hk Hk' Hc H1 H2).
  unfold remote_calls, verify_calls. simpl.
  destruct (count_response (backend w)); reflexivity.
Qed.

Lemma row_symbols_missing rs :
  (exists r, In r rs /\ dict_get r "symbol" = None) -> row_symbols rs = None.
Proof.
  induction rs as [|r t IH]; intros [r' [Hin Hr]]; [destruct Hin|].
  simpl. destruct Hin as [<-|Hin].
  - now rewrite Hr.
  - rewrite IH by (exists r'; auto). now destruct (dict_get r "symbol").
Qed.

(** The message the verification step fails with, if it fails. *)
Definition verification_error (b : Backend) : option string :=
  match count_response b with
  | inl e => Some e
  | inr _ =>
      match rows_response b with
      | inl e => Some e
      | inr rs =>
          match row_symbols rs with
          | None => Some "'symbol'"
          | Some _ => None
          end
      end
  end.

Lemma in_by_existsb x l : existsb (String.eqb x) l = true -> In x l.
Proof.
  intros H. apply existsb_exists in H as [y [Hy E]].
  apply String.eqb_eq in E. now subst.
Qed.

Lemma verify_failure_lines b e :
  verification_error b = Some e ->
  exists pre, verify_result_lines b = (pre ++ verify_error_lines e)%list.
Proof.
  unfold verification_error, verify_result_lines.
  destruct (count_response b) as [e'|n].
  - intros H. injection H as <-. now exists [].
  - destruct (rows_response b) as [e'|rs].
    + intros H. injection H as <-. now exists (count_lines n).
    + destruct (row_symbols rs); [discriminate|].
      intros H. injection H as <-. now exists (count_lines n).
Qed.

(** ** The client library's argument check

    Modelled on the constructor of the supabase-py client, which is not
    part of this repository: it raises [SupabaseException("Invalid URL")]
    unless [re.match(r"^(https?)://.+", supabase_url)] succeeds, that is
    unless the URL starts with [http://] or [https://] followed by at
    least one character other than a newline. *)
Definition url_scheme_ok (scheme url : string) : bool :=
  String.prefix scheme url &&
  match String.get (String.length scheme) url with
  | Some c => negb (Ascii.eqb c (ascii_of_nat 10))
  | None => false
  end.

Definition supabase_url_error (url : string) : option string :=
  if url_scheme_ok "http://" url || url_scheme_ok "https://" url
  then None else Some "Invalid URL".

(** ** Sample inputs *)

Definition env_with (u k : option string) : string -> option string :=
  fun x => if String.eqb x "SUPABASE_URL" then u
           else if String.eqb x "SUPABASE_SERVICE_ROLE_KEY" then k
           else None.

Definition schema_text : string := "CREATE TABLE price_history (symbol text);".
Definition seed_text : string := "INSERT INTO price_history (symbol) VALUES ('BTC');".

Definition sample_fs : string -> string + string :=
  fun p => if String.eqb p schema_path then inr schema_text
           else if String.eqb p seed_path then inr seed_text
           else inl ("[Errno 2] No such file or directory: '" ++ p ++ "'").

Definition no_schema_fs : string -> string + string :=
  fun p => if String.eqb p seed_path then inr seed_text
           else inl ("[Errno 2] No such file or directory: '" ++ p ++ "'").

Definition symbol_rows (syms : list string) : list row :=
  map (fun s => [("symbol", s)]) syms.

Definition sample_backend (rpc : string -> option string) (cnt : string + N)
    (rows : string + list row) : Backend :=
  mkBackend (fun url _ => supabase_url_error url) (fun _ sql => rpc sql) cnt rows.

Definition sample_url : string := "https://demo.supabase.co".
Definition sample_key : string := "service-role-key".

Definition sample_world (f : string -> string + string) (b : Backend) : World :=
  mkWorld (env_with (Some sample_url) (Some sample_key)) f b.

Definition happy_world (n : N) (syms : list string) : World :=
  sample_world sample_fs (sample_backend (fun _ => None) (inr n) (inr (symbol_rows syms))).

(** Every remote call raises. *)
Definition failing_world : World :=
  sample_world sample_fs
    (sample_backend (fun _ => Some "connection refused")
                    (inl "connection refused") (inl "connection refused")).

(** The schema script runs, the seed script fails. *)
Definition seed_fails_world : World :=
  sample_world sample_fs
    (sample_backend (fun sql => if String.eqb sql seed_text
                                then Some "relation price_history does not exist"
                                else None)
                    (inr 0%N) (inr [])).

(** * Properties of the script *)

(** C1: when [SUPABASE_URL] or [SUPABASE_SERVICE_ROLE_KEY] is absent or
    empty, the script prints the two required variable names and exits
    with status 1, without building the client or calling anything. *)
Theorem missing_credentials_exit w :
  env w "SUPABASE_URL" = None \/ env w "SUPABASE_URL" = Some "" \/
  env w "SUPABASE_SERVICE_ROLE_KEY" = None \/ env w "SUPABASE_SERVICE_ROLE_KEY" = Some "" ->
  run w = mkFinal missing_lines [] (Exited 1) /\ exit_status (outcome (run w)) <> 0%Z.
Proof.
  intros H.
  assert (E : run w = mkFinal missing_lines [] (Exited 1)).
  { unfold run, main.
    rewrite (bind_inl _ _ _ _ _ (check_credentials_missing w (mkSt [] []) H)).
    reflexivity. }
  split; [exact E|]. rewrite E. simpl. discriminate.
Qed.

Lemma missing_credentials_exit_witness :
  run (mkWorld (env_with None (Some sample_key)) sample_fs (backend failing_world))
  = mkFinal missing_lines [] (Exited 1) /\
  exit_status (outcome (run (mkWorld (env_with None (Some sample_key)) sample_fs
                                     (backend failing_world)))) <> 0%Z.
Proof. apply missing_credentials_exit. left. reflexivity. Defined.

(** C2 (as stated, refuted): with credentials set and both files
    readable, the script does not make exactly three remote calls: when
    everything succeeds it makes four, the verification step issuing a
    count query and then a separate symbols query. *)
Lemma four_remote_calls_when_all_succeed :
  length (remote_calls (run (happy_world 19 ["BTC"; "ETH"; "SOL"; "ADA"; "MATIC"]))) <> 3.
Proof. vm_compute. discriminate. Qed.

(** C2 (amended): when the credentials are set, the client is built and
    both files are read, the remote calls are, in this order,
    [exec_sql(schema)], [exec_sql(seed)], the count query on
    [price_history], and then the symbols query exactly when the count
    query succeeded; the schema and seed outcomes do not change them. *)
Theorem remote_call_order w u k s1 s2 :
  env w "SUPABASE_URL" = Some u -> u <> "" ->
  env w "SUPABASE_SERVICE_ROLE_KEY" = Some k -> k <> "" ->
  create_client_error (backend w) u k = None ->
  fs w schema_path = inr s1 -> fs w seed_path = inr s2 ->
  remote_calls (run w) =
  ([Rpc "exec_sql" s1; Rpc "exec_sql" s2; TableSelect "price_history" "symbol" true] ++
   match count_response (backend w) with
   | inl _ => []
   | inr _ => [TableSelect "price_history" "symbol" false]
   end)%list.
Proof.
  intros Hu Hu' Hk Hk' Hc H1 H2.
  rewrite (run_passing w u k s1 s2 Hu Hu' Hk Hk' Hc H1 H2).
  unfold remote_calls, verify_calls. cbn [trace filter is_remote app].
  destruct (count_response (backend w)); reflexivity.
Qed.

Lemma remote_call_order_witness :
  remote_calls (run failing_world) =
  [Rpc "exec_sql" schema_text; Rpc "exec_sql" seed_text;
   TableSelect "price_history" "symbol" true].
Proof.
  exact (remote_call_order failing_world sample_url sample_key schema_text seed_text
           eq_refl ltac:(discriminate) eq_refl ltac:(discriminate)
           eq_refl eq_refl eq_refl).
Defined.

(** C3: once the credential check and the two file reads pass, the
    script prints the closing banner last and exits with status 0,
    whatever the three remote steps do (all three may fail). *)
Theorem setup_completes_with_status_0 w u k s1 s2 :
  env w "SUPABASE_URL" = Some u -> u <> "" ->
  env w "SUPABASE_SERVICE_ROLE_KEY" = Some k -> k <> "" ->
  create_client_error (backend w) u k = None ->
  fs w schema_path = inr s1 -> fs w seed_path = inr s2 ->
  outcome (run w) = Exited 0 /\ exit_status (outcome (run w)) = 0%Z /\
  exists pre, stdout (run w) = (pre ++ footer_lines)%list.
Proof.
  intros Hu Hu' Hk Hk' Hc H1 H2.
  rewrite (run_passing w u k s1 s2 Hu Hu' Hk Hk' Hc H1 H2).
  cbn [stdout outcome exit_status].
  split; [reflexivity|]. split; [reflexivity|].
  eexists. rewrite !app_assoc. reflexivity.
Qed.

Lemma setup_completes_with_status_0_witness :
  outcome (run failing_world) = Exited 0 /\ exit_status (outcome (run failing_world)) = 0%Z /\
  exists pre, stdout (run failing_world) = (pre ++ footer_lines)%list.
Proof.
  exact (setup_completes_with_status_0 failing_world sample_url sample_key schema_text seed_text
           eq_refl ltac:(discriminate) eq_refl ltac:(discriminate)
           eq_refl eq_refl eq_refl).
Defined.

(** C5: when the credentials are set and the client is built but a SQL
    file cannot be read, the [OSError] is not caught: the run ends with
    that uncaught exception (status 1), after the "Reading SQL scripts"
    line, with no remote call made and no "STEP 1" line printed. *)
Theorem sql_file_error_uncaught w u k m :
  env w "SUPABASE_URL" = Some u -> u <> "" ->
  env w "SUPABASE_SERVICE_ROLE_KEY" = Some k -> k <> "" ->
  create_client_error (backend w) u k = None ->
  fs w schema_path = inl m \/
  ((exists s1, fs w schema_path = inr s1) /\ fs w seed_path = inl m) ->
  outcome (run w) = Uncaught "OSError" m /\ exit_status (outcome (run w)) <> 0%Z /\
  remote_calls (run w) = [] /\
  stdout (run w) = (header_lines ++ [reading_line])%list /\
  ~ In step1_title (stdout (run w)).
Proof.
  intros Hu Hu' Hk Hk' Hc [H1 | [[s1 H1] H2]].
  - rewrite (run_schema_read_fails w u k m Hu Hu' Hk Hk' Hc H1).
    simpl. repeat split; [discriminate|].
    intros Hin. repeat destruct Hin as [Hin|Hin]; try discriminate Hin; exact Hin.
  - rewrite (run_seed_read_fails w u k s1 m Hu Hu' Hk Hk' Hc H1 H2).
    simpl. repeat split; [discriminate|].
    intros Hin. repeat destruct Hin as [Hin|Hin]; try discriminate Hin; exact Hin.
Qed.

Lemma sql_file_error_uncaught_witness :
  let w := sample_world no_schema_fs (backend failing_world) in
  outcome (run w) = Uncaught "OSError" ("[Errno 2] No such file or directory: '" ++ schema_path ++ "'") /\
  exit_status (outcome (run w)) <> 0%Z /\ remote_calls (run w) = [] /\
  stdout (run w) = (header_lines ++ [reading_line])%list /\
  ~ In step1_title (stdout (run w)).
Proof.
  apply (sql_file_error_uncaught _ sample_url sample_key); try reflexivity; try discriminate.
  left. reflexivity.
Defined.

(** C4: when both verification queries succeed and every row has a
    ['symbol'], the step prints the returned count and then the distinct
    symbols in code-point order, joined by [", "]; with count 12 and rows
    BTC, BTC, ETH, SOL this is [12] and [BTC, ETH, SOL], with count 19 and
    BTC, ETH, SOL, ADA, MATIC the five symbols in order. *)
Theorem verification_reports_count_and_symbols w st n rs l :
  count_response (backend w) = inr n -> rows_response (backend w) = inr rs ->
  row_symbols rs = Some l ->
  (exists syms,
     step_verify w st =
     (inr tt, mkSt (out st ++ banner_lines step3_title ++ count_lines n ++ [available_line syms])
                   (calls st ++ [TableSelect "price_history" "symbol" true;
                                 TableSelect "price_history" "symbol" false])) /\
     StronglySorted slt syms /\ NoDup syms /\ (forall x, In x syms <-> In x l)) /\
  In "✓ Found 12 price history records"
     (stdout (run (happy_world 12 ["BTC"; "BTC"; "ETH"; "SOL"]))) /\
  In "✓ Available symbols: BTC, ETH, SOL"
     (stdout (run (happy_world 12 ["BTC"; "BTC"; "ETH"; "SOL"]))) /\
  In "✓ Available symbols: ADA, BTC, ETH, MATIC, SOL"
     (stdout (run (happy_world 19 ["BTC"; "ETH"; "SOL"; "ADA"; "MATIC"]))) /\
  outcome (run (happy_world 19 ["BTC"; "ETH"; "SOL"; "ADA"; "MATIC"])) = Exited 0.
Proof.
  intros Hn Hrs Hl.
  split; [|split; [|split; [|split]]].
  - exists (py_sorted (py_set l)).
    split; [|exact (sorted_set_spec l)].
    rewrite step_verify_spec. unfold verify_result_lines, verify_calls.
    rewrite Hn, Hrs, Hl. reflexivity.
  - apply in_by_existsb. vm_compute. reflexivity.
  - apply in_by_existsb. vm_compute. reflexivity.
  - apply in_by_existsb. vm_compute. reflexivity.
  - vm_compute. reflexivity.
Qed.

Lemma verification_reports_count_and_symbols_witness :
  exists syms,
    step_verify (happy_world 12 ["BTC"; "BTC"; "ETH"; "SOL"]) (mkSt [] []) =
    (inr tt, mkSt ([] ++ banner_lines step3_title ++ count_lines 12 ++ [available_line syms])
                  ([] ++ [TableSelect "price_history" "symbol" true;
                          TableSelect "price_history" "symbol" false])) /\
    StronglySorted slt syms /\ NoDup syms /\
    (forall x, In x syms <-> In x ["BTC"; "BTC"; "ETH"; "SOL"]).
Proof.
  exact (proj1 (verification_reports_count_and_symbols
           (happy_world 12 ["BTC"; "BTC"; "ETH"; "SOL"]) (mkSt [] []) 12
           (symbol_rows ["BTC"; "BTC"; "ETH"; "SOL"]) ["BTC"; "BTC"; "ETH"; "SOL"]
           eq_refl eq_refl eq_refl)).
Defined.

(** C6 (code bug): a failure of the seed step is not followed by
    remediation guidance, unlike failures of the schema and verification
    steps: the seed handler prints the error line alone, and the next line
    printed is the STEP 3 banner. *)
Lemma seed_failure_prints_no_guidance :
  exists pre post,
    stdout (run seed_fails_world) =
    (pre ++ [step2_title; rule80;
             (nl ++ "✗ Error seeding data: relation price_history does not exist")%string] ++
     banner_lines step3_title ++ post)%list.
Proof.
  exists (firstn 24 (stdout (run seed_fails_world))),
         (skipn 30 (stdout (run seed_fails_world))).
  vm_compute. reflexivity.
Qed.

(** Once the credential check, the client and the file
    reads pass, a failure of any of the three remote steps is caught, the
    run goes on to the next step and exits with status 0, and each remote
    operation is attempted once.  A schema failure prints its message
    followed by the advice to run both scripts in the SQL editor, just
    before the STEP 2 banner; a seed failure prints its message line, just
    before the STEP 3 banner; a verification failure prints its message
    followed by the advice to make sure the scripts were executed, just
    before the closing banner. *)
Theorem remote_failures_caught w u k s1 s2 :
  env w "SUPABASE_URL" = Some u -> u <> "" ->
  env w "SUPABASE_SERVICE_ROLE_KEY" = Some k -> k <> "" ->
  create_client_error (backend w) u k = None ->
  fs w schema_path = inr s1 -> fs w seed_path = inr s2 ->
  outcome (run w) = Exited 0 /\
  (forall e, rpc_response (backend w) "exec_sql" s1 = Some e ->
     exists pre post, stdout (run w) =
       (pre ++ schema_error_lines e ++ banner_lines step2_title ++ post)%list) /\
  (forall e, rpc_response (backend w) "exec_sql" s2 = Some e ->
     exists pre post, stdout (run w) =
       (pre ++ seed_error_lines e ++ banner_lines step3_title ++ post)%list) /\
  (forall e, verification_error (backend w) = Some e ->
     exists pre, stdout (run w) = (pre ++ verify_error_lines e ++ footer_lines)%list) /\
  remote_calls (run w) =
  ([Rpc "exec_sql" s1; Rpc "exec_sql" s2; TableSelect "price_history" "symbol" true] ++
   match count_response (backend w) with
   | inl _ => []
   | inr _ => [TableSelect "price_history" "symbol" false]
   end)%list.
Proof.
  intros Hu Hu' Hk Hk' Hc H1 H2.
  pose proof (remote_calls_passing w u k s1 s2 Hu Hu' Hk Hk' Hc H1 H2) as Hcalls.
  rewrite (run_passing w u k s1 s2 Hu Hu' Hk Hk' Hc H1 H2) in *.
  cbn [stdout outcome].
  split; [reflexivity|]. split; [|split; [|split; [|exact Hcalls]]].
  - intros e He. rewrite He.
    exists (header_lines ++ read_lines ++ banner_lines step1_title)%list, 
           (rpc_result_lines seed_ok_lines seed_error_lines
              (rpc_response (backend w) "exec_sql" s2) ++
            banner_lines step3_title ++ verify_result_lines (backend w) ++ footer_lines)%list.
    rewrite <- !app_assoc. reflexivity.
  - intros e He. rewrite He.
    exists (header_lines ++ read_lines ++ banner_lines step1_title ++
            rpc_result_lines schema_ok_lines schema_error_lines
              (rpc_response (backend w) "exec_sql" s1) ++
            banner_lines step2_title)%list,
           (verify_result_lines (backend w) ++ footer_lines)%list.
    rewrite <- !app_assoc. reflexivity.
  - intros e He. destruct (verify_failure_lines _ _ He) as [pre' Hv]. rewrite Hv.
    exists (header_lines ++ read_lines ++ banner_lines step1_title ++
            rpc_result_lines schema_ok_lines schema_error_lines
              (rpc_response (backend w) "exec_sql" s1) ++
            banner_lines step2_title ++
            rpc_result_lines seed_ok_lines seed_error_lines
              (rpc_response (backend w) "exec_sql" s2) ++
            banner_lines step3_title ++ pre')%list.
    rewrite <- !app_assoc. reflexivity.
Qed.

Lemma remote_failures_caught_witness :
  outcome (run failing_world) = Exited 0 /\
  (forall e, rpc_response (backend failing_world) "exec_sql" schema_text = Some e ->
     exists pre post, stdout (run failing_world) =
       (pre ++ schema_error_lines e ++ banner_lines step2_title ++ post)%list) /\
  (forall e, rpc_response (backend failing_world) "exec_sql" seed_text = Some e ->
     exists pre post, stdout (run failing_world) =
       (pre ++ seed_error_lines e ++ banner_lines step3_title ++ post)%list) /\
  (forall e, verification_error (backend failing_world) = Some e ->
     exists pre, stdout (run failing_world) = (pre ++ verify_error_lines e ++ footer_lines)%list) /\
  remote_calls (run failing_world) =
  [Rpc "exec_sql" schema_text; Rpc "exec_sql" seed_text;
   TableSelect "price_history" "symbol" true].
Proof.
  exact (remote_failures_caught failing_world sample_url sample_key schema_text seed_text
           eq_refl ltac:(discriminate) eq_refl ltac:(discriminate)
           eq_refl eq_refl eq_refl).
Defined.

(** C7 (as stated, refuted): with the same files and the same remote
    responses, two non-empty URLs can still give different output, because
    the client library rejects a URL without an [http://] or [https://]
    scheme: the first run prints the banners, the second prints nothing
    and ends with [SupabaseException("Invalid URL")]. *)
Lemma url_check_changes_output :
  stdout (run (happy_world 3 ["BTC"; "ETH"; "SOL"])) <>
  stdout (run (mkWorld (env_with (Some "demo.supabase.co") (Some sample_key))
                       sample_fs (backend (happy_world 3 ["BTC"; "ETH"; "SOL"])))).
Proof. vm_compute. discriminate. Qed.

(** C7 (amended): two runs whose credentials are both set and non-empty,
    with the same files, the same remote responses, and the same outcome
    of client construction for their respective credentials, print the
    same lines, end the same way and make the same remote calls: the
    script itself never prints the credential values, which reach only the
    client constructor. *)
Theorem credentials_never_printed w1 w2 u1 k1 u2 k2 :
  env w1 "SUPABASE_URL" = Some u1 -> u1 <> "" ->
  env w1 "SUPABASE_SERVICE_ROLE_KEY" = Some k1 -> k1 <> "" ->
  env w2 "SUPABASE_URL" = Some u2 -> u2 <> "" ->
  env w2 "SUPABASE_SERVICE_ROLE_KEY" = Some k2 -> k2 <> "" ->
  create_client_error (backend w1) u1 k1 = create_client_error (backend w2) u2 k2 ->
  fs w1 = fs w2 ->
  rpc_response (backend w1) = rpc_response (backend w2) ->
  count_response (backend w1) = count_response (backend w2) ->
  rows_response (backend w1) = rows_response (backend w2) ->
  stdout (run w1) = stdout (run w2) /\ outcome (run w1) = outcome (run w2) /\
  remote_calls (run w1) = remote_calls (run w2).
Proof.
  intros Hu1 Hu1' Hk1 Hk1' Hu2 Hu2' Hk2 Hk2' Hcc Hfs Hrpc Hcnt Hrows.
  destruct (create_client_error (backend w1) u1 k1) as [m|] eqn:Hc.
  { rewrite (run_client_fails w1 u1 k1 m Hu1 Hu1' Hk1 Hk1' Hc),
            (run_client_fails w2 u2 k2 m Hu2 Hu2' Hk2 Hk2' (eq_sym Hcc)).
    repeat split. }
  destruct (fs w1 schema_path) as [m|s1] eqn:H1.
  { assert (H1' : fs w2 schema_path = inl m) by (rewrite <- Hfs; exact H1).
    rewrite (run_schema_read_fails w1 u1 k1 m Hu1 Hu1' Hk1 Hk1' Hc H1),
            (run_schema_read_fails w2 u2 k2 m Hu2 Hu2' Hk2 Hk2' (eq_sym Hcc) H1').
    repeat split. }
  assert (H1' : fs w2 schema_path = inr s1) by (rewrite <- Hfs; exact H1).
  destruct (fs w1 seed_path) as [m|s2] eqn:H2.
  { assert (H2' : fs w2 seed_path = inl m) by (rewrite <- Hfs; exact H2).
    rewrite (run_seed_read_fails w1 u1 k1 s1 m Hu1 Hu1' Hk1 Hk1' Hc H1 H2),
            (run_seed_read_fails w2 u2 k2 s1 m Hu2 Hu2' Hk2 Hk2' (eq_sym Hcc) H1' H2').
    repeat split. }
  assert (H2' : fs w2 seed_path = inr s2) by (rewrite <- Hfs; exact H2).
  rewrite (run_passing w1 u1 k1 s1 s2 Hu1 Hu1' Hk1 Hk1' Hc H1 H2),
          (run_passing w2 u2 k2 s1 s2 Hu2 Hu2' Hk2 Hk2' (eq_sym Hcc) H1' H2').
  unfold remote_calls, verify_result_lines, verify_calls.
  cbn [stdout outcome trace filter is_remote app].
  rewrite Hrpc, Hcnt, Hrows. repeat split.
Qed.

Lemma credentials_never_printed_witness :
  let w1 := happy_world 3 ["BTC"; "ETH"; "SOL"] in
  let w2 := mkWorld (env_with (Some "https://other.supabase.co") (Some "another-key"))
                    (fs w1) (backend w1) in
  stdout (run w1) = stdout (run w2) /\ outcome (run w1) = outcome (run w2) /\
  remote_calls (run w1) = remote_calls (run w2).
Proof.
  exact (credentials_never_printed (happy_world 3 ["BTC"; "ETH"; "SOL"])
           (mkWorld (env_with (Some "https://other.supabase.co") (Some "another-key"))
                    sample_fs (backend (happy_world 3 ["BTC"; "ETH"; "SOL"])))
           sample_url sample_key "https://other.supabase.co" "another-key"
           eq_refl ltac:(discriminate) eq_refl ltac:(discriminate)
           eq_refl ltac:(discriminate) eq_refl ltac:(discriminate)
           eq_refl eq_refl eq_refl eq_refl eq_refl).
Defined.

(** C8: when the count query raises, the verification step issues no
    symbols query and prints, after its banner, only the "Verification
    failed" message with its advice line: no count line, no symbols line. *)
Theorem count_failure_skips_symbols_query w st e :
  count_response (backend w) = inl e ->
  step_verify w st =
  (inr tt, mkSt (out st ++ banner_lines step3_title ++ verify_error_lines e)
                (calls st ++ [TableSelect "price_history" "symbol" true])).
Proof.
  intros He. rewrite step_verify_spec.
  unfold verify_result_lines, verify_calls. rewrite He. reflexivity.
Qed.

Lemma count_failure_skips_symbols_query_witness :
  step_verify failing_world (mkSt [] []) =
  (inr tt, mkSt ([] ++ banner_lines step3_title ++ verify_error_lines "connection refused")
                ([] ++ [TableSelect "price_history" "symbol" true])).
Proof. exact (count_failure_skips_symbols_query failing_world (mkSt [] []) _ eq_refl). Defined.

(** C9: a symbols row without a ['symbol'] key makes [row['symbol']] raise
    [KeyError] inside the verification [try]: the run prints the
    "Verification failed" message, then the closing banner, and exits
    with status 0. *)
Theorem missing_symbol_key_caught w u k s1 s2 n rs :
  env w "SUPABASE_URL" = Some u -> u <> "" ->
  env w "SUPABASE_SERVICE_ROLE_KEY" = Some k -> k <> "" ->
  create_client_error (backend w) u k = None ->
  fs w schema_path = inr s1 -> fs w seed_path = inr s2 ->
  count_response (backend w) = inr n -> rows_response (backend w) = inr rs ->
  (exists r, In r rs /\ dict_get r "symbol" = None) ->
  outcome (run w) = Exited 0 /\ exit_status (outcome (run w)) = 0%Z /\
  exists pre, stdout (run w) =
    (pre ++ banner_lines step3_title ++ count_lines n ++
     verify_error_lines "'symbol'" ++ footer_lines)%list.
Proof.
  intros Hu Hu' Hk Hk' Hc H1 H2 Hn Hrs Hmiss.
  rewrite (run_passing w u k s1 s2 Hu Hu' Hk Hk' Hc H1 H2).
  cbn [stdout outcome exit_status].
  split; [reflexivity|]. split; [reflexivity|].
  unfold verify_result_lines. rewrite Hn, Hrs, (row_symbols_missing rs Hmiss).
  exists (header_lines ++ read_lines ++ banner_lines step1_title ++
          rpc_result_lines schema_ok_lines schema_error_lines
            (rpc_response (backend w) "exec_sql" s1) ++
          banner_lines step2_title ++
          rpc_result_lines seed_ok_lines seed_error_lines
            (rpc_response (backend w) "exec_sql" s2))%list.
  rewrite <- !app_assoc. reflexivity.
Qed.

Definition malformed_rows : list row := [[("symbol", "BTC")]; [("price", "64000")]].

Definition malformed_world : World :=
  sample_world sample_fs (sample_backend (fun _ => None) (inr 2%N) (inr malformed_rows)).

Lemma missing_symbol_key_caught_witness :
  outcome (run malformed_world) = Exited 0 /\ exit_status (outcome (run malformed_world)) = 0%Z /\
  exists pre, stdout (run malformed_world) =
    (pre ++ banner_lines step3_title ++ count_lines 2 ++
     verify_error_lines "'symbol'" ++ footer_lines)%list.
Proof.
  apply (missing_symbol_key_caught malformed_world sample_url sample_key schema_text seed_text
           2 malformed_rows); try reflexivity; try discriminate.
  exists [("price", "64000")]. split; [right; left; reflexivity | reflexivity].
Defined.

(** C10: two successful verification steps whose rows carry the same set
    of symbol values, whatever their order and repetitions, print the same
    symbols line, and the list on it is sorted and has no duplicates. *)
Theorem symbols_line_depends_on_set w1 w2 st1 st2 n1 n2 rs1 rs2 l1 l2 :
  count_response (backend w1) = inr n1 -> count_response (backend w2) = inr n2 ->
  rows_response (backend w1) = inr rs1 -> rows_response (backend w2) = inr rs2 ->
  row_symbols rs1 = Some l1 -> row_symbols rs2 = Some l2 ->
  (forall x, In x l1 <-> In x l2) ->
  exists syms,
    out (snd (step_verify w1 st1)) =
      (out st1 ++ banner_lines step3_title ++ count_lines n1 ++ [available_line syms])%list /\
    out (snd (step_verify w2 st2)) =
      (out st2 ++ banner_lines step3_title ++ count_lines n2 ++ [available_line syms])%list /\
    StronglySorted slt syms /\ NoDup syms.
Proof.
  intros Hn1 Hn2 Hr1 Hr2 Hl1 Hl2 Heq.
  destruct (sorted_set_spec l1) as [Hs1 [Hnd1 Hin1]].
  destruct (sorted_set_spec l2) as [Hs2 [_ Hin2]].
  assert (E : py_sorted (py_set l1) = py_sorted (py_set l2)).
  { apply sorted_same_elements; [exact Hs1 | exact Hs2|].
    intros x. rewrite Hin1, Hin2. apply Heq. }
  exists (py_sorted (py_set l1)).
  rewrite !step_verify_spec. unfold verify_result_lines. cbn [snd out].
  rewrite Hn1, Hn2, Hr1, Hr2, Hl1, Hl2.
  split; [reflexivity|]. split; [|split; assumption].
  unfold symbols_line. rewrite E. reflexivity.
Qed.

Lemma symbols_line_depends_on_set_witness :
  exists syms,
    out (snd (step_verify (happy_world 4 ["SOL"; "BTC"; "BTC"; "ETH"]) (mkSt [] []))) =
      ([] ++ banner_lines step3_title ++ count_lines 4 ++ [available_line syms])%list /\
    out (snd (step_verify (happy_world 3 ["BTC"; "ETH"; "SOL"]) (mkSt [] []))) =
      ([] ++ banner_lines step3_title ++ count_lines 3 ++ [available_line syms])%list /\
    StronglySorted slt syms /\ NoDup syms.
Proof.
  apply (symbols_line_depends_on_set _ _ (mkSt [] []) (mkSt [] []) 4 3
           (symbol_rows ["SOL"; "BTC"; "BTC"; "ETH"]) (symbol_rows ["BTC"; "ETH"; "SOL"])
           ["SOL"; "BTC"; "BTC"; "ETH"] ["BTC"; "ETH"; "SOL"]);
    try reflexivity.
  intros x. simpl. tauto.
Defined.

(** * Further properties of the script *)

(** When [create_client] raises, the exception is not caught: nothing has
    been printed, the client construction is the only operation (no SQL
    file is opened, no remote call is made), and the run ends with that
    uncaught exception (status 1). *)
Theorem client_failure_uncaught w u k m :
  env w "SUPABASE_URL" = Some u -> u <> "" ->
  env w "SUPABASE_SERVICE_ROLE_KEY" = Some k -> k <> "" ->
  create_client_error (backend w) u k = Some m ->
  stdout (run w) = [] /\ outcome (run w) = Uncaught "SupabaseException" m /\
  exit_status (outcome (run w)) = 1%Z /\ trace (run w) = [CreateClient u k].
Proof.
  intros Hu Hu' Hk Hk' Hc.
  rewrite (run_client_fails w u k m Hu Hu' Hk Hk' Hc).
  repeat split.
Qed.

Lemma client_failure_uncaught_witness :
  let w := mkWorld (env_with (Some "demo.supabase.co") (Some sample_key)) sample_fs
                   (backend failing_world) in
  stdout (run w) = [] /\ outcome (run w) = Uncaught "SupabaseException" "Invalid URL" /\
  exit_status (outcome (run w)) = 1%Z /\ trace (run w) = [CreateClient "demo.supabase.co" sample_key].
Proof.
  apply client_failure_uncaught; try reflexivity; discriminate.
Defined.

(** The credential check rejects only absent or empty values: any
    non-empty values, whitespace-only ones included, pass it and are
    handed unchanged to [create_client], which is the first operation of
    the run. *)
Theorem nonempty_credentials_reach_client w u k :
  env w "SUPABASE_URL" = Some u -> u <> "" ->
  env w "SUPABASE_SERVICE_ROLE_KEY" = Some k -> k <> "" ->
  exists rest, trace (run w) = CreateClient u k :: rest.
Proof.
  intros Hu Hu' Hk Hk'.
  destruct (create_client_error (backend w) u k) as [m|] eqn:Hc.
  { rewrite (run_client_fails w u k m Hu Hu' Hk Hk' Hc). now eexists. }
  destruct (fs w schema_path) as [m|s1] eqn:H1.
  { rewrite (run_schema_read_fails w u k m Hu Hu' Hk Hk' Hc H1). now eexists. }
  destruct (fs w seed_path) as [m|s2] eqn:H2.
  { rewrite (run_seed_read_fails w u k s1 m Hu Hu' Hk Hk' Hc H1 H2). now eexists. }
  rewrite (run_passing w u k s1 s2 Hu Hu' Hk Hk' Hc H1 H2). now eexists.
Qed.

Lemma nonempty_credentials_reach_client_witness :
  exists rest,
    trace (run (mkWorld (env_with (Some " ") (Some " ")) sample_fs
                        (backend failing_world))) = CreateClient " " " " :: rest.
Proof.
  apply nonempty_credentials_reach_client; try reflexivity; discriminate.
Defined.

(** Only [SUPABASE_URL] and [SUPABASE_SERVICE_ROLE_KEY] are read from the
    environment: two environments that agree on them give the same run. *)
Theorem only_credential_variables_read e1 e2 f b :
  e1 "SUPABASE_URL" = e2 "SUPABASE_URL" ->
  e1 "SUPABASE_SERVICE_ROLE_KEY" = e2 "SUPABASE_SERVICE_ROLE_KEY" ->
  run (mkWorld e1 f b) = run (mkWorld e2 f b).
Proof.
  intros Hu Hk.
  assert (Hc : forall st, check_credentials (mkWorld e1 f b) st =
                          check_credentials (mkWorld e2 f b) st).
  { intros st. unfold check_credentials, os_environ_get, bind, ret. simpl.
    now rewrite Hu, Hk. }
  unfold run, main, bind at 1. rewrite Hc. reflexivity.
Qed.

Lemma only_credential_variables_read_witness :
  run (mkWorld (fun x => if String.eqb x "HOME" then Some "/root"
                         else env_with (Some sample_url) (Some sample_key) x)
               sample_fs (backend failing_world)) =
  run (mkWorld (env_with (Some sample_url) (Some sample_key)) sample_fs (backend failing_world)).
Proof. apply only_credential_variables_read; reflexivity. Defined.

(** When the schema file cannot be read, the seed file is never opened:
    the run stops at the first [open], before any remote call. *)
Theorem schema_file_error_skips_seed_file w u k m :
  env w "SUPABASE_URL" = Some u -> u <> "" ->
  env w "SUPABASE_SERVICE_ROLE_KEY" = Some k -> k <> "" ->
  create_client_error (backend w) u k = None ->
  fs w schema_path = inl m ->
  trace (run w) = [CreateClient u k; OpenRead schema_path] /\
  ~ In (OpenRead seed_path) (trace (run w)).
Proof.
  intros Hu Hu' Hk Hk' Hc H1.
  rewrite (run_schema_read_fails w u k m Hu Hu' Hk Hk' Hc H1). simpl.
  split; [reflexivity|]. intros [H|[H|[]]]; discriminate.
Qed.

Lemma schema_file_error_skips_seed_file_witness :
  let w := sample_world no_schema_fs (backend failing_world) in
  trace (run w) = [CreateClient sample_url sample_key; OpenRead schema_path] /\
  ~ In (OpenRead seed_path) (trace (run w)).
Proof.
  apply (schema_file_error_skips_seed_file _ _ _
           ("[Errno 2] No such file or directory: '" ++ schema_path ++ "'"));
    try reflexivity; discriminate.
Defined.

(** The verification output is not all-or-nothing: when the count query
    succeeds and the symbols query then raises, the connection and count
    lines have already been printed, and the failure message and advice
    follow them. *)
Theorem symbols_query_failure_after_count w st n e :
  count_response (backend w) = inr n -> rows_response (backend w) = inl e ->
  step_verify w st =
  (inr tt, mkSt (out st ++ banner_lines step3_title ++ count_lines n ++ verify_error_lines e)
                (calls st ++ [TableSelect "price_history" "symbol" true;
                              TableSelect "price_history" "symbol" false])).
Proof.
  intros Hn He. rewrite step_verify_spec.
  unfold verify_result_lines, verify_calls. rewrite Hn, He. reflexivity.
Qed.

Lemma symbols_query_failure_after_count_witness :
  step_verify (sample_world sample_fs (sample_backend (fun _ => None) (inr 7%N) (inl "timeout")))
              (mkSt [] []) =
  (inr tt, mkSt ([] ++ banner_lines step3_title ++ count_lines 7 ++ verify_error_lines "timeout")
                ([] ++ [TableSelect "price_history" "symbol" true;
                        TableSelect "price_history" "symbol" false])).
Proof. apply symbols_query_failure_after_count; reflexivity. Defined.

(** An empty symbols response is a success, not an error: the step
    prints the count lines and an "Available symbols" line with nothing
    after the colon. *)
Theorem empty_symbols_response w st n :
  count_response (backend w) = inr n -> rows_response (backend w) = inr [] ->
  step_verify w st =
  (inr tt, mkSt (out st ++ banner_lines step3_title ++ count_lines n ++
                 ["✓ Available symbols: "])
                (calls st ++ [TableSelect "price_history" "symbol" true;
                              TableSelect "price_history" "symbol" false])).
Proof.
  intros Hn Hr. rewrite step_verify_spec.
  unfold verify_result_lines, verify_calls. rewrite Hn, Hr. reflexivity.
Qed.

Lemma empty_symbols_response_witness :
  step_verify (happy_world 0 []) (mkSt [] []) =
  (inr tt, mkSt ([] ++ banner_lines step3_title ++ count_lines 0 ++ ["✓ Available symbols: "])
                ([] ++ [TableSelect "price_history" "symbol" true;
                        TableSelect "price_history" "symbol" false])).
Proof. apply empty_symbols_response; reflexivity. Defined.
